(** * magicgui: widget resolution ([create_widget]) and [ButtonWidget]

    A shallow embedding of

      - [src/magicgui/widgets/bases/_create_widget.py] ([create_widget]) and
      - [src/magicgui/widgets/bases/_button_widget.py] ([ButtonWidget]),

    followed by the properties of the two that the specification states.

    Python dictionaries with string keys are finite maps ([gmap string _]);
    Python's dynamically typed values are the inductive [PyVal]; exceptions
    and the observable effects of a call (registry look-ups, constructor
    calls, warnings) are threaded through a small writer/exception monad. *)

From Stdlib Require Import ZArith String Ascii List Bool Lia.
From stdpp Require Import base option gmap strings list fin_maps.

Open Scope string_scope.

(** ** Python values *)

(** A class object.  [ClsStr] is the builtin [str]; every other class is
    identified by its qualified name. *)
Inductive Class :=
  | ClsStr
  | ClsNamed (qualname : string).

(** The values that flow through the two source files.  [PyObj] is any
    other object: an identity together with what [bool(obj)] answers. *)
Inductive PyVal :=
  | PyNone
  | PyBool (b : bool)
  | PyInt (n : Z)
  | PyStr (s : string)
  | PyType (c : Class)
  | PyObj (ident : string) (truth : bool).

#[global] Instance Class_eq_dec : EqDecision Class.
Proof. solve_decision. Defined.

#[global] Instance PyVal_eq_dec : EqDecision PyVal.
Proof. solve_decision. Defined.

(** [magicgui.types.Undefined]: the "no value given" sentinel, distinct from
    [None]. *)
Definition Undefined : PyVal := PyObj "Undefined" false.

(** Python's truth test, as used by [if x], [x or y] and [not x]. *)
Definition truthy (v : PyVal) : bool :=
  match v with
  | PyNone => false
  | PyBool b => b
  | PyInt n => negb (n =? 0)%Z
  | PyStr s => negb (s =? "")%string
  | PyType _ => true
  | PyObj _ t => t
  end.

(** [a or b] *)
Definition py_or (a b : PyVal) : PyVal := if truthy a then a else b.

(** A dictionary with string keys. *)
Abbreviation Dict := (gmap string PyVal).

(** [d.get(k)]: the value, or [None] *)
Definition dict_get (d : Dict) (k : string) : PyVal := default PyNone (d !! k).

(** [d.pop(k, dflt)]: the value (or [dflt]) and the dictionary without [k] *)
Definition dict_pop (d : Dict) (k : string) (dflt : PyVal) : PyVal * Dict :=
  (default dflt (d !! k), delete k d).

(** [{**a, **b}]: the entries of [b] win. *)
Definition dict_merge (a b : Dict) : Dict := b ∪ a.

(** [repr] of a class object. *)
Definition class_name (c : Class) : string :=
  match c with
  | ClsStr => "str"
  | ClsNamed q => q
  end.

Definition repr_class (c : Class) : string :=
  "<class '" ++ class_name c ++ "'>".

(** ** Strings

    Python strings are modelled by their ASCII content. *)

Definition is_upper (c : ascii) : bool :=
  (65 <=? nat_of_ascii c)%nat && (nat_of_ascii c <=? 90)%nat.

Definition is_lower (c : ascii) : bool :=
  (97 <=? nat_of_ascii c)%nat && (nat_of_ascii c <=? 122)%nat.

Definition lower_ascii (c : ascii) : ascii :=
  if is_upper c then ascii_of_nat (nat_of_ascii c + 32) else c.

Definition upper_ascii (c : ascii) : ascii :=
  if is_lower c then ascii_of_nat (nat_of_ascii c - 32) else c.

(** [s.lower()] *)
Fixpoint lower (s : string) : string :=
  match s with
  | EmptyString => EmptyString
  | String c r => String (lower_ascii c) (lower r)
  end.

(** [s.replace(old, new)] for one-character [old] and [new] *)
Fixpoint replace (old new : ascii) (s : string) : string :=
  match s with
  | EmptyString => EmptyString
  | String c r =>
      String (if Ascii.eqb c old then new else c) (replace old new r)
  end.

(** [c in s] *)
Fixpoint contains (c : ascii) (s : string) : bool :=
  match s with
  | EmptyString => false
  | String d r => Ascii.eqb d c || contains c r
  end.

(** [t] is [s] up to the case of its letters: position by position the
    character of [t] is that of [s] or its upper-case form. *)
Fixpoint any_case_of (s t : string) : Prop :=
  match s, t with
  | EmptyString, EmptyString => True
  | String a s', String b t' => (b = a \/ b = upper_ascii a) /\ any_case_of s' t'
  | _, _ => False
  end.

(** All characters are lower-case letters. *)
Fixpoint all_lower (s : string) : bool :=
  match s with
  | EmptyString => true
  | String c r => is_lower c && all_lower r
  end.

(** ** Effects *)

Inductive Exc :=
  | AssertionError
  | TypeError (msg : string)
  | AttributeError (msg : string)
  | Raised (what : string).

Inductive Outcome (A : Type) :=
  | Ok (a : A)
  | Raise (e : Exc).
Arguments Ok {A} a.
Arguments Raise {A} e.

(** What a constructor is asked to build: a class handed out by the
    registry, or an attribute of [magicgui.widgets.bases]. *)
Inductive Ctor :=
  | CtorClass (c : Class)
  | CtorBases (attr : string).

(** The effects of a call that a caller can observe. *)
Inductive Event :=
  | EvRegistry (value annotation : PyVal) (options : Dict)
               (is_result raise_on_unknown : bool)
  | EvConstruct (ctor : Ctor) (kwargs : Dict)
  | EvWarn (msg : string).

(** Computations that log events and may raise. *)
Definition M (A : Type) : Type := list Event * Outcome A.

Definition ret {A} (a : A) : M A := ([], Ok a).

Definition raise {A} (e : Exc) : M A := ([], Raise e).

Definition emit (ev : Event) : M unit := ([ev], Ok tt).

Definition bind {A B} (m : M A) (f : A -> M B) : M B :=
  match m with
  | (l, Ok a) => let '(l', r) := f a in ((l ++ l')%list, r)
  | (l, Raise e) => (l, Raise e)
  end.

Definition lift {A} (o : Outcome A) : M A := ([], o).

#[global] Instance M_ret : MRet M := @ret.
#[global] Instance M_bind : MBind M := fun A B f m => bind m f.

Definition trace {A} (m : M A) : list Event := fst m.
Definition outcome {A} (m : M A) : Outcome A := snd m.


(** ** [create_widget] *)

Module CreateWidget.

(** The collaborators of [create_widget] that live outside the two source
    files.  A call is resolved against one such environment. *)
Record Env := {
  (** [isinstance(cls, getattr(protocols, prot))] *)
  implements : string -> Class -> bool;
  (** [issubclass(cls, Widget)] *)
  is_Widget_subclass : Class -> bool;
  (** the truth value of [use_app(app).native] *)
  use_app_native : option string -> bool;
  (** [magicgui.type_map.get_widget_class]; it leaves the dictionary it is
      handed as it found it *)
  get_widget_class :
    PyVal -> PyVal -> Dict -> bool -> bool -> Outcome (Class * Dict);
  (** the exception a constructor call ends in, if any *)
  construct_raises : Ctor -> Dict -> option Exc
}.

(** The arguments of [create_widget]. *)
Record Args := {
  value : PyVal;
  annotation : PyVal;
  name : string;
  param_kind : PyVal;
  label : PyVal;
  gui_only : bool;
  app : option string;
  widget_type : PyVal;
  options : option Dict;
  is_result : bool;
  raise_on_unknown : bool
}.

(** The call [create_widget()] with every parameter at its default. *)
Definition default_args : Args := {|
  value := Undefined;
  annotation := PyNone;
  name := "";
  param_kind := PyStr "POSITIONAL_OR_KEYWORD";
  label := PyNone;
  gui_only := false;
  app := None;
  widget_type := PyNone;
  options := None;
  is_result := false;
  raise_on_unknown := true
|}.

(** A widget as [create_widget] hands it back: the constructor that built
    it, the keyword arguments the constructor received and the
    [param_kind] attribute, when [create_widget] assigned one. *)
Record Widget := {
  w_ctor : Ctor;
  w_kwargs : Dict;
  w_param_kind : option PyVal
}.

(** The tuple the loop at the end of [create_widget] runs over. *)
Definition protocol_prefixes : list string :=
  ["Categorical"; "Ranged"; "Button"; "Value"; ""].

(** [annotation is str] *)
Definition is_str (annotation : PyVal) : bool :=
  bool_decide (annotation = PyType ClsStr).

(** Unpacking [v or {}] as keyword arguments, for a value [v] found in a
    dictionary of keyword arguments: nothing for a false value; any other
    value here is not a mapping and cannot be unpacked. *)
Definition unpack_or_empty (v : PyVal) : M Dict :=
  if truthy v then raise (TypeError "argument after ** must be a mapping")
  else ret ∅.

Section WithEnv.

Variable E : Env.

(** [assert use_app(app).native] *)
Definition assert_native (app : option string) : M unit :=
  if use_app_native E app then ret tt else raise AssertionError.

(** [get_widget_class(value, annotation, _options, is_result,
    raise_on_unknown)], and the record that the registry was asked. *)
Definition lookup_registry (value annotation : PyVal) (_options : Dict)
    (is_result raise_on_unknown : bool) : M (Class * Dict) :=
  emit (EvRegistry value annotation _options is_result raise_on_unknown);;
  lift (get_widget_class E value annotation _options is_result raise_on_unknown).

(** The call of a constructor with keyword arguments [kwargs]. *)
Definition construct (ctor : Ctor) (kwargs : Dict) : M Widget :=
  emit (EvConstruct ctor kwargs);;
  match construct_raises E ctor kwargs with
  | Some e => raise e
  | None => ret {| w_ctor := ctor; w_kwargs := kwargs; w_param_kind := None |}
  end.

(** [if param_kind: widget.param_kind = param_kind] *)
Definition set_param_kind (param_kind : PyVal) (widget : Widget) : Widget :=
  if truthy param_kind
  then {| w_ctor := w_ctor widget; w_kwargs := w_kwargs widget;
          w_param_kind := Some param_kind |}
  else widget.

(** The body of the loop once [isinstance(wdg_class, prot)] holds. *)
Definition wrap_in (p : string) (kwargs : Dict) (wdg_class : Class)
    (param_kind : PyVal) : M Widget :=
  let '(_options, kwargs) := dict_pop kwargs "options" PyNone in
  extra ← unpack_or_empty _options;
  widget ← construct (CtorBases (p ++ "Widget"))
             (<["widget_type" := PyType wdg_class]> (dict_merge kwargs extra));
  ret (set_param_kind param_kind widget).

(** [for p in (...): prot = getattr(protocols, f"{p}WidgetProtocol"); ...]
    followed by the [raise TypeError] after the loop. *)
Fixpoint protocol_loop (ps : list string) (kwargs : Dict) (wdg_class : Class)
    (param_kind : PyVal) : M Widget :=
  match ps with
  | [] =>
      raise (TypeError (repr_class wdg_class ++
                        " does not implement any known widget protocols"))
  | p :: ps' =>
      if implements E (p ++ "WidgetProtocol") wdg_class
      then wrap_in p kwargs wdg_class param_kind
      else protocol_loop ps' kwargs wdg_class param_kind
  end.

(** The first prefix in [ps] whose protocol [wdg_class] implements: the
    iteration at which the loop stops. *)
Fixpoint first_match (ps : list string) (wdg_class : Class) : option string :=
  match ps with
  | [] => None
  | p :: ps' =>
      if implements E (p ++ "WidgetProtocol") wdg_class then Some p
      else first_match ps' wdg_class
  end.


(** [isinstance(widget_type, protocols.WidgetProtocol)]: only a class object
    carries the attributes the protocol asks for. *)
Definition isinstance_WidgetProtocol (widget_type : PyVal) : option Class :=
  match widget_type with
  | PyType c => if implements E "WidgetProtocol" c then Some c else None
  | _ => None
  end.

(** [options.copy() if options is not None else {}] *)
Definition copy_options (a : Args) : Dict := default ∅ (options a).

(** The dictionary [_options] as it stands when the registry is called. *)
Definition resolve_options (a : Args) : Dict :=
  let _options := copy_options a in
  let _options :=
    if truthy (widget_type a)
    then <["widget_type" := widget_type a]> _options
    else _options in
  if negb (truthy (dict_get _options "widget_type"))
     && (lower (name a) =? "password")%string
     && is_str (annotation a)
  then <["widget_type" := PyStr "Password"]> _options
  else _options.

(** The dictionary [kwargs]. *)
Definition base_kwargs (a : Args) : Dict :=
  {[ "value" := value a;
     "annotation" := annotation a;
     "name" := PyStr (name a);
     "label" := label a;
     "gui_only" := PyBool (gui_only a) ]}.

Definition create_widget (a : Args) : M Widget :=
  let kwargs := base_kwargs a in
  assert_native (app a);;
  match isinstance_WidgetProtocol (widget_type a) with
  | Some wdg_class =>
      protocol_loop protocol_prefixes kwargs wdg_class (param_kind a)
  | None =>
      let _options := resolve_options a in
      '(wdg_class, opts) ← lookup_registry (value a) (annotation a) _options
                              (is_result a) (raise_on_unknown a);
      if is_Widget_subclass E wdg_class
      then
        widget ← construct (CtorClass wdg_class)
                   (dict_merge (dict_merge kwargs opts) _options);
        ret (set_param_kind (param_kind a) widget)
      else protocol_loop protocol_prefixes kwargs wdg_class (param_kind a)
  end.

End WithEnv.

End CreateWidget.

(** ** [ButtonWidget] *)

Module Button.

(** Mutable dictionaries live in a store and are handed around by
    reference. *)
Abbreviation Heap := (gmap nat Dict).

(** The callbacks connected to each signal instance, in connection order. *)
Abbreviation Signals := (gmap nat (list nat)).

(** The state of a widget object: what the attributes that [ButtonWidget]
    reads and writes evaluate to. *)
Record Widget := {
  (** [self.name] *)
  w_name : string;
  (** what the backend answers to [_mgui_get_text()] *)
  w_backend_text : string;
  (** the mapping that the inherited [options] property evaluates to *)
  w_super_options : nat;
  (** the signal instance that the descriptor [changed] is bound to *)
  w_changed : nat
}.

Definition synonym_warning : string :=
  "'text' and 'label' are synonymous for button widgets. To suppress this"
  ++ " warning, only provide one of the two kwargs.".

(** [warn(msg)] *)
Definition warn (msg : string) : M unit := emit (EvWarn msg).

(** [v.replace("_", " ")]; only a string has the method. *)
Definition str_replace (v : PyVal) : M string :=
  match v with
  | PyStr s => ret (replace "_" " " s)
  | _ => raise (AttributeError "replace")
  end.

(** The property [text]. *)
Definition text (self : Widget) : string := w_backend_text self.

(** Modelled from the spec: the backend object, which is missing from the
    source files, keeps the text it is handed by [_mgui_set_text] in a slot
    of its own and answers [_mgui_get_text] from that slot.  This is the
    setter of the property [text]. *)
Definition set_text (self : Widget) (value : string) : Widget :=
  {| w_name := w_name self;
     w_backend_text := value;
     w_super_options := w_super_options self;
     w_changed := w_changed self |}.

(** The value of [text] and the keyword arguments at the moment the base
    constructor is called: [text] falls back on ["label"], then on
    ["description"], and ["description"] is popped only when it is looked
    at. *)
Definition text_at_super (text : PyVal) (base_widget_kwargs : Dict) : PyVal :=
  let text := py_or text (dict_get base_widget_kwargs "label") in
  if truthy text then text
  else fst (dict_pop base_widget_kwargs "description" PyNone).

Definition kwargs_at_super (text : PyVal) (base_widget_kwargs : Dict) : Dict :=
  if truthy (py_or text (dict_get base_widget_kwargs "label"))
  then base_widget_kwargs
  else snd (dict_pop base_widget_kwargs "description" PyNone).

Section Init.

(** [ValueWidget.__init__], the constructor of the base class: it builds the
    object from [value], [bind], [nullable] and the remaining keyword
    arguments, or raises. *)
Variable super_init : PyVal -> PyVal -> bool -> Dict -> Outcome Widget.

(** [ButtonWidget.__init__] *)
Definition __init__ (value text bind : PyVal) (nullable : bool)
    (base_widget_kwargs : Dict) : M Widget :=
  (if truthy text && truthy (dict_get base_widget_kwargs "label")
   then warn synonym_warning
   else ret tt);;
  let text := py_or text (dict_get base_widget_kwargs "label") in
  let '(text, base_widget_kwargs) :=
    if truthy text then (text, base_widget_kwargs)
    else dict_pop base_widget_kwargs "description" PyNone in
  self ← lift (super_init value bind nullable base_widget_kwargs);
  s ← str_replace (py_or text (PyStr (w_name self)));
  ret (set_text self s).

End Init.

(** [d.copy()]: a new dictionary with the entries of the one at [l] *)
Definition dict_copy (l : nat) (h : Heap) : option (nat * Heap) :=
  m ← h !! l;
  let l' := fresh (dom h) in
  Some (l', <[l' := m]> h).

(** [d.update(other)] on the dictionary at [l] *)
Definition dict_update (l : nat) (other : Dict) (h : Heap) : Heap :=
  alter (fun m => dict_merge m other) l h.

(** The property [options].  The inherited property is taken at its most
    sharing-prone: it hands out a reference to one mapping kept in the
    store. *)
Definition options (self : Widget) (h : Heap) : option (nat * Heap) :=
  '(d, h) ← dict_copy (w_super_options self) h;
  Some (d, dict_update d {[ "text" := PyStr (text self) ]} h).

(** The signal instance [self.changed]. *)
Definition changed (self : Widget) : nat := w_changed self.

(** The property [clicked]. *)
Definition clicked (self : Widget) : nat := changed self.

(** Modelled from the spec: signal dispatch, which is missing from the
    source files.  [connect] subscribes a callback to a signal instance. *)
Definition connect (sig cb : nat) (st : Signals) : Signals :=
  <[sig := (default [] (st !! sig) ++ [cb])%list]> st.

(** Modelled from the spec: signal dispatch, which is missing from the
    source files.  A state change with new value [v] emits the signal; the
    result lists the callbacks called, with their argument, in order. *)
Definition emit_signal (sig : nat) (v : PyVal) (st : Signals)
    : list (nat * PyVal) :=
  map (fun cb => (cb, v)) (default [] (st !! sig)).

(** How often callback [cb] was called. *)
Definition calls_of (cb : nat) (calls : list (nat * PyVal)) : nat :=
  length (List.filter (fun c => Nat.eqb (fst c) cb) calls).

End Button.

(** ** Concrete collaborators and calls

    Environments and arguments at which the properties below are
    exercised. *)

Module Samples.

Import CreateWidget.

(** A backend class with the attributes of [ValueWidgetProtocol] (and so of
    [WidgetProtocol]), a backend class with those of
    [ButtonWidgetProtocol], a finished widget class, the generic widget
    class the registry falls back to, and a class that is no widget at
    all. *)
Definition LineEdit : Class := ClsNamed "backends.LineEdit".
Definition PushButton : Class := ClsNamed "backends.PushButton".
Definition Password : Class := ClsNamed "magicgui.widgets.Password".
Definition EmptyWidget : Class := ClsNamed "magicgui.widgets.EmptyWidget".

Definition sample_implements (prot : string) (c : Class) : bool :=
  if bool_decide (c = LineEdit)
  then bool_decide (prot = "ValueWidgetProtocol")
       || bool_decide (prot = "WidgetProtocol")
  else if bool_decide (c = PushButton)
  then bool_decide (prot = "ButtonWidgetProtocol")
       || bool_decide (prot = "ValueWidgetProtocol")
       || bool_decide (prot = "WidgetProtocol")
  else false.

Definition sample_is_Widget_subclass (c : Class) : bool :=
  bool_decide (c = Password) || bool_decide (c = EmptyWidget).

(** A registry in the manner of [magicgui.type_map]: a class named under
    ["widget_type"] is returned as it is, with the other options as its
    defaults; the name ["Password"] selects the masked-input widget; and a
    type it does not know is an error or, when [raise_on_unknown] is off,
    the generic widget. *)
Definition sample_registry (value annotation : PyVal) (options : Dict)
    (is_result raise_on_unknown : bool) : Outcome (Class * Dict) :=
  match options !! "widget_type" with
  | Some (PyType c) => Ok (c, delete "widget_type" options)
  | Some (PyStr "Password") => Ok (Password, delete "widget_type" options)
  | _ =>
      if raise_on_unknown
      then Raise (Raised "ValueError: no widget found")
      else Ok (EmptyWidget, {[ "visible" := PyBool false ]})
  end.

Definition sample_env : Env := {|
  implements := sample_implements;
  is_Widget_subclass := sample_is_Widget_subclass;
  use_app_native := fun _ => true;
  get_widget_class := sample_registry;
  construct_raises := fun _ _ => None
|}.

(** [create_widget(name="x", options={"widget_type": LineEdit, "tooltip":
    "hi"})] *)
Definition args_tooltip : Args := {|
  value := Undefined;
  annotation := PyNone;
  name := "x";
  param_kind := PyStr "POSITIONAL_OR_KEYWORD";
  label := PyNone;
  gui_only := false;
  app := None;
  widget_type := PyNone;
  options := Some {[ "widget_type" := PyType LineEdit;
                     "tooltip" := PyStr "hi" ]};
  is_result := false;
  raise_on_unknown := true
|}.

(** [create_widget(annotation=str, name="PassWord")] *)
Definition args_password : Args := {|
  value := Undefined;
  annotation := PyType ClsStr;
  name := "PassWord";
  param_kind := PyStr "POSITIONAL_OR_KEYWORD";
  label := PyNone;
  gui_only := false;
  app := None;
  widget_type := PyNone;
  options := None;
  is_result := false;
  raise_on_unknown := true
|}.




(** A base constructor that takes the widget's name from the keyword
    argument ["name"], the empty string when there is none. *)
Definition sample_super_init (value bind : PyVal) (nullable : bool)
    (kwargs : Dict) : Outcome Button.Widget :=
  Ok {| Button.w_name :=
          match kwargs !! "name" with
          | Some (PyStr s) => s
          | _ => ""
          end;
        Button.w_backend_text := "";
        Button.w_super_options := 0;
        Button.w_changed := 0 |}.

(** What that constructor builds for the name [run_me]. *)
Definition sample_self : Button.Widget :=
  {| Button.w_name := "run_me";
     Button.w_backend_text := "";
     Button.w_super_options := 0;
     Button.w_changed := 0 |}.

(** The keyword arguments [name="run_me", label="B"] and [name="run_me"]. *)
Definition kwargs_label : Dict :=
  {[ "name" := PyStr "run_me"; "label" := PyStr "B" ]}.

Definition kwargs_name : Dict := {[ "name" := PyStr "run_me" ]}.

(** The keyword arguments that [create_widget(widget_type=PushButton)]
    passes to the wrapper, but for [value]: the name is the default [""]. *)
Definition kwargs_default : Dict :=
  {[ "annotation" := PyNone;
     "name" := PyStr "";
     "label" := PyNone;
     "gui_only" := PyBool false;
     "widget_type" := PyType PushButton ]}.

(** The keyword arguments [name="run_me", description="go_on"]. *)
Definition kwargs_description : Dict :=
  {[ "name" := PyStr "run_me"; "description" := PyStr "go_on" ]}.

(** A widget named [run_me] that shows [run me], and a store in which the
    inherited options are [{"enabled": True}]. *)
Definition sample_button : Button.Widget :=
  {| Button.w_name := "run_me";
     Button.w_backend_text := "run me";
     Button.w_super_options := 0;
     Button.w_changed := 7 |}.

Definition sample_heap : Button.Heap :=
  {[ 0%nat := {[ "enabled" := PyBool true ]} ]}.

End Samples.

(** ** [create_widget] calling [ButtonWidget]

    For a class with the attributes of [ButtonWidgetProtocol] the loop of
    [create_widget] calls [bases.ButtonWidget] with keyword arguments. *)

Module Bases.

(** The parameter [nullable], annotated [bool], of a call with keyword
    arguments: the truth value of the argument, [False] without one. *)
Definition nullable_of (kwargs : Dict) : bool :=
  match kwargs !! "nullable" with
  | Some v => truthy v
  | None => false
  end.

(** The call of [ButtonWidget] with keyword arguments [kwargs]: [value],
    [text], [bind] and [nullable] bind to the parameters of that name, at
    their defaults when absent, and the rest is [base_widget_kwargs]. *)
Definition ButtonWidget
    (super_init : PyVal -> PyVal -> bool -> Dict -> Outcome Button.Widget)
    (kwargs : Dict) : M Button.Widget :=
  Button.__init__ super_init
    (default Undefined (kwargs !! "value"))
    (default PyNone (kwargs !! "text"))
    (default Undefined (kwargs !! "bind"))
    (nullable_of kwargs)
    (delete "nullable" (delete "bind" (delete "text" (delete "value" kwargs)))).

End Bases.

(** ** What a caller observes of a call *)

Module Observed.

Import CreateWidget.

(** The registry was asked, first of all, with the options [opts]. *)
Definition registry_asked_with (E : Env) (a : Args) (opts : Dict) : Prop :=
  exists rest,
    trace (create_widget E a) =
    EvRegistry (value a) (annotation a) opts (is_result a)
      (raise_on_unknown a) :: rest.


End Observed.

(** ** Further collaborators and calls *)

Module MoreSamples.

Import CreateWidget Samples.

(** An environment without a running application. *)
Definition headless_env : Env := {|
  implements := sample_implements;
  is_Widget_subclass := sample_is_Widget_subclass;
  use_app_native := fun _ => false;
  get_widget_class := sample_registry;
  construct_raises := fun _ _ => None
|}.


(** [create_widget(name="password", annotation=str, widget_type="Password",
    options={"widget_type": "Slider"})] *)
Definition args_named : Args := {|
  value := Undefined;
  annotation := PyType ClsStr;
  name := "password";
  param_kind := PyStr "POSITIONAL_OR_KEYWORD";
  label := PyNone;
  gui_only := false;
  app := None;
  widget_type := PyStr "Password";
  options := Some {[ "widget_type" := PyStr "Slider" ]};
  is_result := false;
  raise_on_unknown := true
|}.

(** [create_widget(name="password", annotation=str,
    options={"widget_type": EmptyWidget})] *)
Definition args_chosen : Args := {|
  value := Undefined;
  annotation := PyType ClsStr;
  name := "password";
  param_kind := PyStr "POSITIONAL_OR_KEYWORD";
  label := PyNone;
  gui_only := false;
  app := None;
  widget_type := PyNone;
  options := Some {[ "widget_type" := PyType EmptyWidget ]};
  is_result := false;
  raise_on_unknown := true
|}.

(** [create_widget(name="password", annotation=str,
    options={"widget_type": None})] *)
Definition args_blank : Args := {|
  value := Undefined;
  annotation := PyType ClsStr;
  name := "password";
  param_kind := PyStr "POSITIONAL_OR_KEYWORD";
  label := PyNone;
  gui_only := false;
  app := None;
  widget_type := PyNone;
  options := Some {[ "widget_type" := PyNone ]};
  is_result := false;
  raise_on_unknown := true
|}.

(** [create_widget(widget_type=PushButton, name="run_me", label=label,
    param_kind=None)] *)
Definition args_button (label : PyVal) : Args := {|
  value := Undefined;
  annotation := PyNone;
  name := "run_me";
  param_kind := PyNone;
  label := label;
  gui_only := false;
  app := None;
  widget_type := PyType PushButton;
  options := None;
  is_result := false;
  raise_on_unknown := true
|}.

(** A base constructor that accepts no keyword argument ["description"]. *)
Definition strict_super_init (value bind : PyVal) (nullable : bool)
    (kwargs : Dict) : Outcome Button.Widget :=
  match kwargs !! "description" with
  | Some _ =>
      Raise (TypeError "got an unexpected keyword argument 'description'")
  | None => sample_super_init value bind nullable kwargs
  end.

(** A store in which the inherited options already have a key ["text"]. *)
Definition heap_with_text : Button.Heap :=
  {[ 0%nat := {[ "enabled" := PyBool true; "text" := PyStr "old" ]} ]}.

End MoreSamples.

(** ** Properties of strings *)

Lemma lower_ascii_cases (b : ascii) :
  b = lower_ascii b \/ b = upper_ascii (lower_ascii b).
Proof.
  destruct b as [[] [] [] [] [] [] [] []]; vm_compute; auto.
Qed.

Lemma lower_ascii_of_lower (a : ascii) :
  is_lower a = true -> lower_ascii a = a.
Proof.
  destruct a as [[] [] [] [] [] [] [] []]; vm_compute; congruence.
Qed.

Lemma lower_ascii_of_upper (a : ascii) :
  is_lower a = true -> lower_ascii (upper_ascii a) = a.
Proof.
  destruct a as [[] [] [] [] [] [] [] []]; vm_compute; congruence.
Qed.

(** Lower-casing hits a lower-case word exactly on its case variants. *)
Lemma lower_any_case (s : string) :
  all_lower s = true -> forall t, lower t = s <-> any_case_of s t.
Proof.
  induction s as [|a s IH]; intros Hs t.
  - destruct t; simpl; split; try done.
  - simpl in Hs. apply andb_true_iff in Hs as [Ha Hs].
    destruct t as [|b t]; simpl; [split; [done | tauto]|].
    split.
    + intros Heq. injection Heq as Hb Ht. split.
      * destruct (lower_ascii_cases b) as [H | H]; rewrite Hb in H; auto.
      * by apply IH.
    + intros [Hb Ht]. f_equal.
      * destruct Hb as [-> | ->];
          [by apply lower_ascii_of_lower | by apply lower_ascii_of_upper].
      * by apply IH.
Qed.

Lemma replace_nonempty (old new : ascii) (s : string) :
  s <> "" -> replace old new s <> "".
Proof. destruct s; simpl; [done | discriminate]. Qed.

Lemma replace_absent (old new : ascii) (s : string) :
  contains old s = false -> replace old new s = s.
Proof.
  induction s as [|c s IH]; simpl; [done|].
  intros H. apply orb_false_iff in H as [Hc Hs].
  rewrite Hc. by rewrite IH.
Qed.

Lemma truthy_PyStr (s : string) : truthy (PyStr s) = true <-> s <> "".
Proof.
  simpl. rewrite negb_true_iff. split.
  - intros H ->. discriminate.
  - intros H. by apply String.eqb_neq.
Qed.

(** ** Properties of the monad *)

Lemma bind_ret_l {A B} (a : A) (f : A -> M B) : (ret a ≫= f) = f a.
Proof. unfold mbind, M_bind, bind, ret. by destruct (f a). Qed.

Lemma bind_emit {B} (ev : Event) (k : M B) :
  (emit ev;; k) = (ev :: trace k, outcome k).
Proof. unfold mbind, M_bind, bind, emit, trace, outcome. by destruct k. Qed.

Lemma bind_Ok {A B} (l : list Event) (a : A) (f : A -> M B) :
  (((l, Ok a) : M A) ≫= f) = ((l ++ trace (f a))%list, outcome (f a)).
Proof. unfold mbind, M_bind, bind, trace, outcome. by destruct (f a). Qed.

Lemma bind_Raise {A B} (l : list Event) (e : Exc) (f : A -> M B) :
  (((l, Raise e) : M A) ≫= f) = (l, Raise e).
Proof. done. Qed.

(** ** Properties of [create_widget] *)

Module CreateWidgetFacts.

Import CreateWidget Samples.

Section WithEnv.

Variable E : Env.

Lemma base_kwargs_no_options (a : Args) : base_kwargs a !! "options" = None.
Proof. unfold base_kwargs. by simplify_map_eq. Qed.

Lemma construct_eq (ctor : Ctor) (kw : Dict) :
  construct E ctor kw =
  ([EvConstruct ctor kw],
   match construct_raises E ctor kw with
   | Some e => Raise e
   | None => Ok {| w_ctor := ctor; w_kwargs := kw; w_param_kind := None |}
   end).
Proof.
  unfold construct. rewrite bind_emit.
  by destruct (construct_raises E ctor kw).
Qed.

(** The wrapper receives the base keyword arguments and the class, and
    nothing else: [kwargs] has no key ["options"] to pop. *)
Lemma wrap_in_base (p : string) (a : Args) (c : Class) (pk : PyVal) :
  wrap_in E p (base_kwargs a) c pk =
  ([EvConstruct (CtorBases (p ++ "Widget"))
      (<["widget_type" := PyType c]> (base_kwargs a))],
   match construct_raises E (CtorBases (p ++ "Widget"))
           (<["widget_type" := PyType c]> (base_kwargs a)) with
   | Some e => Raise e
   | None =>
       Ok (set_param_kind pk
             {| w_ctor := CtorBases (p ++ "Widget");
                w_kwargs := <["widget_type" := PyType c]> (base_kwargs a);
                w_param_kind := None |})
   end).
Proof.
  unfold wrap_in, dict_pop. rewrite base_kwargs_no_options.
  rewrite delete_id by apply base_kwargs_no_options.
  unfold unpack_or_empty.
  change (truthy (default PyNone None)) with false. cbv iota.
  rewrite bind_ret_l. unfold dict_merge. rewrite (left_id_L ∅ (∪)).
  rewrite construct_eq.
  unfold mbind, M_bind, bind, ret.
  by destruct (construct_raises E _ _).
Qed.

Lemma protocol_loop_first_match (ps : list string) (kw : Dict) (c : Class)
    (pk : PyVal) :
  protocol_loop E ps kw c pk =
  match first_match E ps c with
  | Some p => wrap_in E p kw c pk
  | None =>
      raise (TypeError (repr_class c ++
                        " does not implement any known widget protocols"))
  end.
Proof.
  induction ps as [|p ps IH]; simpl; [done|].
  by destruct (implements E (p ++ "WidgetProtocol") c).
Qed.

(** The loop stops at the first protocol, in the order of the tuple, that
    the class implements. *)
Lemma first_match_Some (ps : list string) (c : Class) (p : string) :
  first_match E ps c = Some p <->
  exists before after,
    ps = (before ++ p :: after)%list /\
    implements E (p ++ "WidgetProtocol") c = true /\
    Forall (fun q => implements E (q ++ "WidgetProtocol") c = false) before.
Proof.
  induction ps as [|q ps IH]; simpl.
  - split; [done|]. intros (before & after & H & _). by destruct before.
  - destruct (implements E (q ++ "WidgetProtocol") c) eqn:Hq.
    + split.
      * intros [= <-]. exists [], ps. by repeat split.
      * intros (before & after & Hps & Hp & Hbefore).
        destruct before as [|q' before]; simpl in Hps.
        -- by injection Hps as -> _.
        -- injection Hps as -> _. apply Forall_cons in Hbefore as [H _].
           congruence.
    + rewrite IH. split.
      * intros (before & after & -> & Hp & Hbefore).
        exists (q :: before), after. repeat split; [done|].
        by apply Forall_cons.
      * intros (before & after & Hps & Hp & Hbefore).
        destruct before as [|q' before]; simpl in Hps.
        -- injection Hps as -> _. congruence.
        -- injection Hps as -> ->. apply Forall_cons in Hbefore as [_ H].
           by exists before, after.
Qed.


(** When the [widget_type] argument is a class with the attributes of
    [WidgetProtocol], the call is the loop over the protocols. *)
Lemma create_widget_override (a : Args) (c : Class) :
  use_app_native E (app a) = true ->
  isinstance_WidgetProtocol E (widget_type a) = Some c ->
  create_widget E a =
  protocol_loop E protocol_prefixes (base_kwargs a) c (param_kind a).
Proof.
  intros Hnative Hconf. unfold create_widget, assert_native.
  rewrite Hnative, Hconf. by rewrite bind_ret_l.
Qed.

(** Otherwise the registry is asked, and its answer decides between the
    direct construction and the loop. *)
Lemma create_widget_registry (a : Args) (c : Class) (opts : Dict) :
  use_app_native E (app a) = true ->
  isinstance_WidgetProtocol E (widget_type a) = None ->
  get_widget_class E (value a) (annotation a) (resolve_options a)
    (is_result a) (raise_on_unknown a) = Ok (c, opts) ->
  let k :=
    if is_Widget_subclass E c
    then
      widget ← construct E (CtorClass c)
                 (dict_merge (dict_merge (base_kwargs a) opts)
                    (resolve_options a));
      ret (set_param_kind (param_kind a) widget)
    else protocol_loop E protocol_prefixes (base_kwargs a) c (param_kind a) in
  create_widget E a =
  (EvRegistry (value a) (annotation a) (resolve_options a) (is_result a)
     (raise_on_unknown a) :: trace k, outcome k).
Proof.
  intros Hnative Hconf Hreg k. unfold create_widget, assert_native.
  rewrite Hnative, Hconf, bind_ret_l. unfold lookup_registry.
  rewrite Hreg, bind_emit. unfold lift, trace at 1, outcome at 1.
  cbn [fst snd]. by rewrite bind_Ok.
Qed.

Lemma create_widget_registry_trace (a : Args) :
  use_app_native E (app a) = true ->
  isinstance_WidgetProtocol E (widget_type a) = None ->
  exists rest,
    trace (create_widget E a) =
    EvRegistry (value a) (annotation a) (resolve_options a) (is_result a)
      (raise_on_unknown a) :: rest.
Proof.
  intros Hnative Hconf.
  destruct (get_widget_class E (value a) (annotation a) (resolve_options a)
              (is_result a) (raise_on_unknown a)) as [[c opts]|e] eqn:Hreg.
  - rewrite (create_widget_registry a c opts Hnative Hconf Hreg). by eexists.
  - unfold create_widget, assert_native.
    rewrite Hnative, Hconf, bind_ret_l. unfold lookup_registry.
    rewrite Hreg. by eexists.
Qed.




(** C3: with no explicit widget type, a name that is "password" up to letter
    case together with the annotation [str] makes the registry look-up ask
    for ["Password"]; with another name or another annotation the look-up
    carries the caller's options as they are. *)
Theorem password_heuristic (a : Args) :
  use_app_native E (app a) = true ->
  widget_type a = PyNone ->
  copy_options a !! "widget_type" = None ->
  (any_case_of "password" (name a) /\ annotation a = PyType ClsStr ->
   resolve_options a = <["widget_type" := PyStr "Password"]> (copy_options a)
   /\ exists rest,
        trace (create_widget E a) =
        EvRegistry (value a) (annotation a)
          (<["widget_type" := PyStr "Password"]> (copy_options a))
          (is_result a) (raise_on_unknown a) :: rest)
  /\ (~ (any_case_of "password" (name a) /\ annotation a = PyType ClsStr) ->
      resolve_options a = copy_options a
      /\ exists rest,
           trace (create_widget E a) =
           EvRegistry (value a) (annotation a) (copy_options a)
             (is_result a) (raise_on_unknown a) :: rest).
Proof.
  intros Hnative Hwt Hkey.
  assert (Hconf : isinstance_WidgetProtocol E (widget_type a) = None)
    by by rewrite Hwt.
  destruct (create_widget_registry_trace a Hnative Hconf) as [rest Hrest].
  assert (Hlower : lower (name a) = "password" <->
                   any_case_of "password" (name a))
    by by apply lower_any_case.
  assert (Hres : resolve_options a =
            if (lower (name a) =? "password")%string && is_str (annotation a)
            then <["widget_type" := PyStr "Password"]> (copy_options a)
            else copy_options a).
  { unfold resolve_options, dict_get. rewrite Hwt. simpl. by rewrite Hkey. }
  split.
  - intros [Hname Hann]. apply Hlower in Hname.
    assert (Hfire : resolve_options a =
              <["widget_type" := PyStr "Password"]> (copy_options a)).
    { rewrite Hres, Hname, Hann. unfold is_str.
      by rewrite bool_decide_eq_true_2. }
    split; [done|]. exists rest. by rewrite <- Hfire.
  - intros Hnot.
    assert (Hidle : resolve_options a = copy_options a).
    { rewrite Hres.
      destruct (lower (name a) =? "password")%string eqn:Hname; [|done].
      apply String.eqb_eq in Hname. unfold is_str.
      destruct (decide (annotation a = PyType ClsStr)) as [Hann|Hann].
      - exfalso. apply Hnot. split; [by apply Hlower | done].
      - by rewrite bool_decide_eq_false_2. }
    split; [done|]. exists rest. by rewrite <- Hidle.
Qed.




(** A raw backend class from the registry is wrapped by the first
    capability-set it matches; the wrapper's constructor receives the base
    keyword arguments and the class, whatever the caller's options and the
    registry's defaults are. *)
Lemma raw_class_wrapper_kwargs (a : Args) (c : Class) (opts : Dict)
    (p : string) :
  use_app_native E (app a) = true ->
  isinstance_WidgetProtocol E (widget_type a) = None ->
  get_widget_class E (value a) (annotation a) (resolve_options a)
    (is_result a) (raise_on_unknown a) = Ok (c, opts) ->
  is_Widget_subclass E c = false ->
  first_match E protocol_prefixes c = Some p ->
  trace (create_widget E a) =
    [EvRegistry (value a) (annotation a) (resolve_options a) (is_result a)
       (raise_on_unknown a);
     EvConstruct (CtorBases (p ++ "Widget"))
       (<["widget_type" := PyType c]> (base_kwargs a))].
Proof.
  intros Hnative Hconf Hreg Hsub Hfm.
  rewrite (create_widget_registry a c opts Hnative Hconf Hreg), Hsub.
  by rewrite protocol_loop_first_match, Hfm, wrap_in_base.
Qed.

End WithEnv.

(** *** The properties at the sample calls *)



Lemma password_heuristic_witness :
  resolve_options args_password = <["widget_type" := PyStr "Password"]> ∅.
Proof.
  refine (proj1 (proj1 (password_heuristic sample_env args_password _ _ _) _)).
  - reflexivity.
  - reflexivity.
  - reflexivity.
  - split; [|reflexivity].
    vm_compute. repeat split; (by left) || (by right).
Defined.





(** C1, at [create_widget(name="x", options={"widget_type": LineEdit,
    "tooltip": "hi"})], where the registry answers with the raw backend
    class [LineEdit] and the default option ["tooltip"]: the class is
    wrapped in [ValueWidget], the first capability-set it matches, and
    [param_kind] is attached, but the wrapper's constructor receives no
    ["tooltip"], neither the caller's nor the registry's. *)
Theorem raw_class_wrapper_drops_options :
  copy_options args_tooltip !! "tooltip" = Some (PyStr "hi")
  /\ get_widget_class sample_env (value args_tooltip)
       (annotation args_tooltip) (resolve_options args_tooltip)
       (is_result args_tooltip) (raise_on_unknown args_tooltip)
     = Ok (LineEdit, {[ "tooltip" := PyStr "hi" ]})
  /\ is_Widget_subclass sample_env LineEdit = false
  /\ first_match sample_env protocol_prefixes LineEdit = Some "Value"
  /\ create_widget sample_env args_tooltip =
     ([EvRegistry Undefined PyNone
         {[ "widget_type" := PyType LineEdit; "tooltip" := PyStr "hi" ]}
         false true;
       EvConstruct (CtorBases "ValueWidget")
         (<["widget_type" := PyType LineEdit]> (base_kwargs args_tooltip))],
      Ok {| w_ctor := CtorBases "ValueWidget";
            w_kwargs :=
              <["widget_type" := PyType LineEdit]> (base_kwargs args_tooltip);
            w_param_kind := Some (PyStr "POSITIONAL_OR_KEYWORD") |})
  /\ (<["widget_type" := PyType LineEdit]> (base_kwargs args_tooltip))
       !! "tooltip" = None.
Proof. repeat split; vm_compute; reflexivity. Qed.

End CreateWidgetFacts.

(** ** Properties of [ButtonWidget] *)

Module ButtonFacts.

Import Button Samples.

Section Init.

Variable super_init : PyVal -> PyVal -> bool -> Dict -> Outcome Widget.

(** The constructor, one effect at a time: the warning when both [text] and
    ["label"] are true values, the base constructor on the remaining
    keyword arguments, the replacement on the winner of the chain. *)
Lemma init_eq (value text bind : PyVal) (nullable : bool) (kw : Dict) :
  __init__ super_init value text bind nullable kw =
  (if truthy text && truthy (dict_get kw "label")
   then [EvWarn synonym_warning] else [],
   match super_init value bind nullable (kwargs_at_super text kw) with
   | Ok self =>
       match py_or (text_at_super text kw) (PyStr (w_name self)) with
       | PyStr s => Ok (set_text self (replace "_" " " s))
       | _ => Raise (AttributeError "replace")
       end
   | Raise e => Raise e
   end).
Proof.
  unfold __init__, text_at_super, kwargs_at_super, warn.
  set (both := truthy text && truthy (dict_get kw "label")).
  set (t1 := py_or text (dict_get kw "label")).
  assert (Hhead : forall k : M Widget,
            ((if both then emit (EvWarn synonym_warning) else ret tt);; k) =
            ((if both then [EvWarn synonym_warning] else []) ++ trace k,
             outcome k)%list).
  { intros k. destruct both; [by rewrite bind_emit | rewrite bind_ret_l].
    by destruct k. }
  rewrite Hhead. clear Hhead.
  assert (Htail : forall (t : PyVal) (kw' : Dict),
            (self ← lift (super_init value bind nullable kw');
             s ← str_replace (py_or t (PyStr (w_name self)));
             ret (set_text self s)) =
            ([], match super_init value bind nullable kw' with
                 | Ok self =>
                     match py_or t (PyStr (w_name self)) with
                     | PyStr s => Ok (set_text self (replace "_" " " s))
                     | _ => Raise (AttributeError "replace")
                     end
                 | Raise e => Raise e
                 end)).
  { intros t kw'. unfold lift.
    destruct (super_init value bind nullable kw') as [self|e]; [|done].
    rewrite bind_Ok.
    by destruct (py_or t (PyStr (w_name self))). }
  unfold dict_pop. cbn [fst snd].
  destruct (truthy t1); rewrite Htail; unfold trace, outcome; cbn [fst snd];
    by rewrite app_nil_r.
Qed.

Lemma truthy_false_py_or (a b : PyVal) : truthy a = false -> py_or a b = b.
Proof. unfold py_or. by intros ->. Qed.

Lemma truthy_true_py_or (a b : PyVal) : truthy a = true -> py_or a b = a.
Proof. unfold py_or. by intros ->. Qed.

Lemma dict_get_Some (kw : Dict) (k : string) (v : PyVal) :
  kw !! k = Some v -> dict_get kw k = v.
Proof. unfold dict_get. by intros ->. Qed.

(** C2, as the code has it: with [text=A] and [label=B], both non-empty, the
    warning is emitted and the display text is [A] with underscores replaced
    by spaces, so [A] itself when it has none; with only [label=B] it is [B]
    with underscores replaced by spaces and nothing is warned; with none of
    [text], [label] and [description] it is the widget's name with
    underscores replaced by spaces. *)
Theorem text_precedence (value bind : PyVal) (nullable : bool) (kw : Dict) :
  (forall A B self,
     A <> "" -> B <> "" -> kw !! "label" = Some (PyStr B) ->
     super_init value bind nullable kw = Ok self ->
     __init__ super_init value (PyStr A) bind nullable kw =
       ([EvWarn synonym_warning], Ok (set_text self (replace "_" " " A)))
     /\ (contains "_" A = false ->
         text (set_text self (replace "_" " " A)) = A))
  /\ (forall txt B self,
        truthy txt = false -> B <> "" -> kw !! "label" = Some (PyStr B) ->
        super_init value bind nullable kw = Ok self ->
        __init__ super_init value txt bind nullable kw =
          ([], Ok (set_text self (replace "_" " " B)))
        /\ (contains "_" B = false ->
            text (set_text self (replace "_" " " B)) = B))
  /\ (forall txt self,
        truthy txt = false ->
        truthy (dict_get kw "label") = false ->
        truthy (dict_get kw "description") = false ->
        super_init value bind nullable (delete "description" kw) = Ok self ->
        __init__ super_init value txt bind nullable kw =
          ([], Ok (set_text self (replace "_" " " (w_name self))))).
Proof.
  split; [|split].
  - intros A B self HA HB Hlabel Hsuper.
    apply truthy_PyStr in HA. apply truthy_PyStr in HB.
    split; [|intros Hno; simpl; by apply replace_absent].
    rewrite init_eq. unfold kwargs_at_super, text_at_super.
    rewrite (dict_get_Some _ _ _ Hlabel), HB, (truthy_true_py_or _ _ HA).
    rewrite HA, Hsuper. by rewrite (truthy_true_py_or _ _ HA).
  - intros txt B self Htxt HB Hlabel Hsuper. apply truthy_PyStr in HB.
    split; [|intros Hno; simpl; by apply replace_absent].
    rewrite init_eq. unfold kwargs_at_super, text_at_super.
    rewrite (dict_get_Some _ _ _ Hlabel), Htxt, (truthy_false_py_or _ _ Htxt).
    rewrite HB, Hsuper. by rewrite (truthy_true_py_or _ _ HB).
  - intros txt self Htxt Hlabel Hdesc Hsuper.
    rewrite init_eq. unfold kwargs_at_super, text_at_super, dict_pop.
    cbn [fst snd]. fold (dict_get kw "description").
    rewrite Htxt, (truthy_false_py_or _ _ Htxt), Hlabel, Hsuper.
    by rewrite (truthy_false_py_or _ _ Hdesc).
Qed.

(** C7, as the code has it: after construction the display text is the
    winner of the chain, or else the widget's name, with underscores
    replaced by spaces; it is non-empty when a non-empty text was resolved,
    and with no text resolved it is non-empty exactly when the name is.  The
    setter of [text] stores the string it is handed, whichever it is. *)
Theorem display_text_after_init (value txt bind : PyVal) (nullable : bool)
    (kw : Dict) (self : Widget) :
  super_init value bind nullable (kwargs_at_super txt kw) = Ok self ->
  (forall t,
     text_at_super txt kw = PyStr t -> t <> "" ->
     exists w,
       outcome (__init__ super_init value txt bind nullable kw) = Ok w /\
       text w = replace "_" " " t /\
       text w <> "")
  /\ (truthy (text_at_super txt kw) = false ->
      exists w,
        outcome (__init__ super_init value txt bind nullable kw) = Ok w /\
        w_name w = w_name self /\
        text w = replace "_" " " (w_name w) /\
        (text w <> "" <-> w_name w <> ""))
  /\ (forall w v, text (set_text w v) = v).
Proof.
  intros Hsuper. split; [|split].
  - intros t Ht Hne. rewrite init_eq, Hsuper. unfold outcome. cbn [snd].
    rewrite Ht, truthy_true_py_or by by apply truthy_PyStr.
    eexists. split; [done|]. split; [done|]. simpl. by apply replace_nonempty.
  - intros Hfalse. rewrite init_eq, Hsuper. unfold outcome. cbn [snd].
    rewrite truthy_false_py_or by done.
    eexists. split; [done|]. split; [done|]. split; [done|]. simpl. split.
    + intros H Hname. apply H. by rewrite Hname.
    + apply replace_nonempty.
  - done.
Qed.

(** C8: the replacement of underscores by spaces is applied to the text
    that wins the chain, be it the explicit [text], the [label] or the
    backend's [description], as well as to the name. *)
Theorem replacement_applies_to_winner (value bind : PyVal) (nullable : bool)
    (kw : Dict) :
  (forall A self,
     A <> "" ->
     super_init value bind nullable kw = Ok self ->
     exists w,
       outcome (__init__ super_init value (PyStr A) bind nullable kw) = Ok w /\
       text w = replace "_" " " A)
  /\ (forall txt B self,
        truthy txt = false -> B <> "" -> kw !! "label" = Some (PyStr B) ->
        super_init value bind nullable kw = Ok self ->
        exists w,
          outcome (__init__ super_init value txt bind nullable kw) = Ok w /\
          text w = replace "_" " " B)
  /\ (forall txt D self,
        truthy txt = false -> truthy (dict_get kw "label") = false ->
        D <> "" -> kw !! "description" = Some (PyStr D) ->
        super_init value bind nullable (delete "description" kw) = Ok self ->
        exists w,
          outcome (__init__ super_init value txt bind nullable kw) = Ok w /\
          text w = replace "_" " " D)
  /\ replace "_" " " "my_btn" = "my btn".
Proof.
  split; [|split; [|split; [|done]]].
  - intros A self HA Hsuper. apply truthy_PyStr in HA.
    rewrite init_eq. unfold kwargs_at_super, text_at_super.
    rewrite (truthy_true_py_or _ _ HA), HA, Hsuper.
    rewrite (truthy_true_py_or _ _ HA). by eexists.
  - intros txt B self Htxt HB Hlabel Hsuper. apply truthy_PyStr in HB.
    rewrite init_eq. unfold kwargs_at_super, text_at_super.
    rewrite (dict_get_Some _ _ _ Hlabel), (truthy_false_py_or _ _ Htxt).
    rewrite HB, Hsuper, (truthy_true_py_or _ _ HB). by eexists.
  - intros txt D self Htxt Hlabel HD Hdesc Hsuper. apply truthy_PyStr in HD.
    rewrite init_eq. unfold kwargs_at_super, text_at_super, dict_pop.
    cbn [fst snd].
    rewrite (truthy_false_py_or _ _ Htxt), Hlabel, Hsuper, Hdesc.
    cbn [default]. rewrite (truthy_true_py_or _ _ HD). by eexists.
Qed.

End Init.

(** *** The property [options] *)

(** One read of [options]: the result is a new dictionary with the inherited
    entries and ["text"], and every dictionary that was in the store is as
    it was. *)
Lemma options_read (self : Widget) (h : Heap) (base : Dict) :
  h !! w_super_options self = Some base ->
  let d := fresh (dom h) in
  exists h',
    options self h = Some (d, h') /\
    h !! d = None /\
    h' !! d = Some (<["text" := PyStr (text self)]> base) /\
    (forall l, l <> d -> h' !! l = h !! l).
Proof.
  intros Hbase d.
  assert (Hfresh : h !! d = None).
  { apply not_elem_of_dom. apply is_fresh. }
  unfold options, dict_copy. rewrite Hbase. cbn [mbind option_bind].
  fold d. eexists. split; [done|]. split; [done|]. split.
  - unfold dict_update, dict_merge.
    rewrite lookup_alter_eq, lookup_insert_eq. cbn [fmap option_fmap option_map].
    by rewrite <- insert_union_singleton_l.
  - intros l Hl. unfold dict_update.
    by rewrite lookup_alter_ne, lookup_insert_ne.
Qed.

(** C9: reading [options] yields the inherited mapping extended with
    ["text"] bound to the current display text, in a dictionary that was
    not in the store before; no dictionary of the store changes, and after
    any change to the returned dictionary a second read yields the same
    entries again, in yet another dictionary. *)
Theorem options_is_fresh_copy (self : Widget) (h : Heap) (base : Dict) :
  h !! w_super_options self = Some base ->
  exists d h',
    options self h = Some (d, h') /\
    h !! d = None /\
    h' !! d = Some (<["text" := PyStr (text self)]> base) /\
    (forall l, l <> d -> h' !! l = h !! l) /\
    (forall m, exists d2 h2,
        options self (<[d := m]> h') = Some (d2, h2) /\
        d2 <> d /\
        h2 !! d2 = Some (<["text" := PyStr (text self)]> base) /\
        h2 !! w_super_options self = Some base).
Proof.
  intros Hbase.
  destruct (options_read self h base Hbase) as (h' & Hopt & Hnew & Hd & Hframe).
  exists (fresh (dom h)), h'. repeat split; try done.
  intros m. set (d := fresh (dom h)) in *.
  assert (Hne : w_super_options self <> d) by congruence.
  assert (Hbase' : <[d := m]> h' !! w_super_options self = Some base).
  { rewrite lookup_insert_ne by done. by rewrite Hframe. }
  destruct (options_read self _ base Hbase')
    as (h2 & Hopt2 & Hnew2 & Hd2 & Hframe2).
  exists (fresh (dom (<[d := m]> h'))), h2.
  assert (Hne2 : fresh (dom (<[d := m]> h')) <> d).
  { intros Heq. rewrite Heq, lookup_insert_eq in Hnew2. discriminate. }
  repeat split; try done.
  rewrite Hframe2; [done|]. intros Heq. rewrite <- Heq, Hbase' in Hnew2.
  discriminate.
Qed.

(** *** The alias [clicked] *)

Lemma calls_of_app (cb : nat) (l1 l2 : list (nat * PyVal)) :
  calls_of cb (l1 ++ l2) = (calls_of cb l1 + calls_of cb l2)%nat.
Proof. unfold calls_of. by rewrite List.filter_app, length_app. Qed.

Lemma emit_after_connect (sig cb : nat) (v : PyVal) (st : Signals) :
  emit_signal sig v (connect sig cb st) =
  (emit_signal sig v st ++ [(cb, v)])%list.
Proof.
  unfold emit_signal, connect. rewrite lookup_insert_eq.
  cbn [from_option id]. by rewrite List.map_app.
Qed.

(** C10: [clicked] is the signal instance [changed]; a callback connected
    through either name is called exactly once more per emission than
    before, and an emission through either name calls the same callbacks. *)
Theorem clicked_is_changed (self : Widget) (st : Signals) (cb : nat)
    (v : PyVal) :
  clicked self = changed self
  /\ connect (clicked self) cb st = connect (changed self) cb st
  /\ emit_signal (clicked self) v st = emit_signal (changed self) v st
  /\ calls_of cb (emit_signal (changed self) v (connect (clicked self) cb st))
     = S (calls_of cb (emit_signal (changed self) v st))
  /\ calls_of cb (emit_signal (changed self) v (connect (changed self) cb st))
     = S (calls_of cb (emit_signal (changed self) v st)).
Proof.
  assert (Hcount :
    calls_of cb (emit_signal (changed self) v (connect (changed self) cb st))
    = S (calls_of cb (emit_signal (changed self) v st))).
  { rewrite emit_after_connect, calls_of_app. unfold calls_of at 2.
    simpl. rewrite Nat.eqb_refl. simpl. lia. }
  by repeat split.
Qed.

(** *** The properties at the sample widgets *)

Lemma text_precedence_witness :
  __init__ sample_super_init Undefined (PyStr "A") Undefined false kwargs_label
  = ([EvWarn synonym_warning],
     Ok {| w_name := "run_me"; w_backend_text := "A";
           w_super_options := 0; w_changed := 0 |})
  /\ __init__ sample_super_init Undefined PyNone Undefined false kwargs_label
     = ([], Ok {| w_name := "run_me"; w_backend_text := "B";
                  w_super_options := 0; w_changed := 0 |})
  /\ __init__ sample_super_init Undefined PyNone Undefined false kwargs_name
     = ([], Ok {| w_name := "run_me"; w_backend_text := "run me";
                  w_super_options := 0; w_changed := 0 |}).
Proof.
  split; [|split].
  - refine (proj1 (proj1 (text_precedence sample_super_init Undefined Undefined
                            false kwargs_label) "A" "B" sample_self _ _ _ _)).
    + discriminate.
    + discriminate.
    + reflexivity.
    + reflexivity.
  - refine (proj1 (proj1 (proj2 (text_precedence sample_super_init Undefined
                                   Undefined false kwargs_label))
                     PyNone "B" sample_self _ _ _ _)).
    + reflexivity.
    + discriminate.
    + reflexivity.
    + reflexivity.
  - refine (proj2 (proj2 (text_precedence sample_super_init Undefined Undefined
                            false kwargs_name)) PyNone sample_self _ _ _ _).
    + reflexivity.
    + reflexivity.
    + reflexivity.
    + reflexivity.
Defined.

(** With [text="a_b"] and [label="B"] the display text is ["a b"], not
    ["a_b"]. *)
Lemma text_with_underscore_counterexample :
  __init__ sample_super_init Undefined (PyStr "a_b") Undefined false
    kwargs_label
  = ([EvWarn synonym_warning],
     Ok {| w_name := "run_me"; w_backend_text := "a b";
           w_super_options := 0; w_changed := 0 |})
  /\ "a b" <> "a_b".
Proof. split; [vm_compute; reflexivity | discriminate]. Qed.

Lemma display_text_after_init_witness :
  (exists w,
     outcome (__init__ sample_super_init Undefined PyNone Undefined false
                kwargs_label) = Ok w /\
     text w = "B" /\ text w <> "")
  /\ (exists w,
        outcome (__init__ sample_super_init Undefined PyNone Undefined false
                   kwargs_name) = Ok w /\
        w_name w = "run_me" /\
        text w = replace "_" " " (w_name w) /\
        (text w <> "" <-> w_name w <> "")).
Proof.
  split.
  - refine (proj1 (display_text_after_init sample_super_init Undefined PyNone
                     Undefined false kwargs_label sample_self _) "B" _ _).
    + reflexivity.
    + reflexivity.
    + discriminate.
  - refine (proj1 (proj2 (display_text_after_init sample_super_init Undefined
                            PyNone Undefined false kwargs_name sample_self _)) _).
    + reflexivity.
    + reflexivity.
Defined.

(** A button constructed without text, label and description and with the
    default name shows the empty string, and the setter of [text] takes the
    empty string. *)
Lemma empty_text_counterexample :
  __init__ sample_super_init Undefined PyNone Undefined false kwargs_default
  = ([], Ok {| w_name := ""; w_backend_text := "";
               w_super_options := 0; w_changed := 0 |})
  /\ text {| w_name := ""; w_backend_text := "";
             w_super_options := 0; w_changed := 0 |} = ""
  /\ text (set_text sample_button "") = "".
Proof. repeat split; vm_compute; reflexivity. Qed.

Lemma replacement_applies_to_winner_witness :
  (exists w,
     outcome (__init__ sample_super_init Undefined (PyStr "my_btn") Undefined
                false kwargs_name) = Ok w /\
     text w = "my btn")
  /\ (exists w,
        outcome (__init__ sample_super_init Undefined PyNone Undefined false
                   kwargs_description) = Ok w /\
        text w = "go on").
Proof.
  split.
  - refine (proj1 (replacement_applies_to_winner sample_super_init Undefined
                     Undefined false kwargs_name) "my_btn" sample_self _ _).
    + discriminate.
    + reflexivity.
  - refine (proj1 (proj2 (proj2 (replacement_applies_to_winner
                                   sample_super_init Undefined Undefined false
                                   kwargs_description)))
              PyNone "go_on" sample_self _ _ _ _ _).
    + reflexivity.
    + reflexivity.
    + discriminate.
    + reflexivity.
    + reflexivity.
Defined.

Lemma options_is_fresh_copy_witness :
  exists d h',
    options sample_button sample_heap = Some (d, h') /\
    sample_heap !! d = None /\
    h' !! d = Some (<["text" := PyStr "run me"]> {[ "enabled" := PyBool true ]}) /\
    (forall l, l <> d -> h' !! l = sample_heap !! l) /\
    (forall m, exists d2 h2,
        options sample_button (<[d := m]> h') = Some (d2, h2) /\
        d2 <> d /\
        h2 !! d2 =
          Some (<["text" := PyStr "run me"]> {[ "enabled" := PyBool true ]}) /\
        h2 !! 0%nat = Some {[ "enabled" := PyBool true ]}).
Proof.
  refine (options_is_fresh_copy sample_button sample_heap
            {[ "enabled" := PyBool true ]} _).
  reflexivity.
Defined.

End ButtonFacts.

(** ** Further properties of [create_widget] *)

Module CreateWidgetMore.

Import CreateWidget Samples MoreSamples Observed CreateWidgetFacts.

Section WithEnv.

Variable E : Env.

(** Every way through [create_widget], with the effects of each. *)
Lemma create_widget_nf (a : Args) :
  create_widget E a =
  let built (ctor : Ctor) (kw : Dict) : M Widget :=
    ([EvConstruct ctor kw],
     match construct_raises E ctor kw with
     | Some e => Raise e
     | None =>
         Ok (set_param_kind (param_kind a)
               {| w_ctor := ctor; w_kwargs := kw; w_param_kind := None |})
     end) in
  let loop (c : Class) : M Widget :=
    match first_match E protocol_prefixes c with
    | Some p =>
        built (CtorBases (p ++ "Widget"))
          (<["widget_type" := PyType c]> (base_kwargs a))
    | None =>
        ([], Raise (TypeError (repr_class c ++
                               " does not implement any known widget protocols")))
    end in
  let asked :=
    EvRegistry (value a) (annotation a) (resolve_options a) (is_result a)
      (raise_on_unknown a) in
  if use_app_native E (app a)
  then
    match isinstance_WidgetProtocol E (widget_type a) with
    | Some c => loop c
    | None =>
        match get_widget_class E (value a) (annotation a) (resolve_options a)
                (is_result a) (raise_on_unknown a) with
        | Ok (c, opts) =>
            if is_Widget_subclass E c
            then
              let m :=
                built (CtorClass c)
                  (dict_merge (dict_merge (base_kwargs a) opts)
                     (resolve_options a)) in
              (asked :: trace m, outcome m)
            else (asked :: trace (loop c), outcome (loop c))
        | Raise e => ([asked], Raise e)
        end
    end
  else ([], Raise AssertionError).
Proof.
  cbv zeta.
  destruct (use_app_native E (app a)) eqn:Hnative.
  - destruct (isinstance_WidgetProtocol E (widget_type a)) as [c|] eqn:Hconf.
    + rewrite (create_widget_override E a c Hnative Hconf).
      rewrite protocol_loop_first_match.
      destruct (first_match E protocol_prefixes c); [|done].
      by rewrite wrap_in_base.
    + destruct (get_widget_class E (value a) (annotation a)
                  (resolve_options a) (is_result a) (raise_on_unknown a))
        as [[c opts]|e] eqn:Hreg.
      * rewrite (create_widget_registry E a c opts Hnative Hconf Hreg).
        destruct (is_Widget_subclass E c).
        -- rewrite construct_eq.
           destruct (construct_raises E _ _); [done|].
           by rewrite bind_Ok.
        -- rewrite protocol_loop_first_match.
           destruct (first_match E protocol_prefixes c); [|done].
           by rewrite wrap_in_base.
      * unfold create_widget, assert_native.
        rewrite Hnative, Hconf, bind_ret_l. unfold lookup_registry.
        by rewrite Hreg.
  - unfold create_widget, assert_native. by rewrite Hnative.
Qed.

(** X1: without a running application the call ends in the assertion
    error before anything else happens: the registry is not asked and no
    constructor is called, whatever the arguments. *)
Theorem not_native_raises_first (a : Args) :
  use_app_native E (app a) = false ->
  create_widget E a = ([], Raise AssertionError).
Proof. intros Hnative. rewrite create_widget_nf. cbv zeta. by rewrite Hnative. Qed.

(** X2: where the widget type asked of the registry comes from.  A
    [widget_type] argument that is a true value replaces whatever the
    caller's options have under ["widget_type"], also for a parameter named
    "password"; without the argument a true value under that key is kept,
    also for a parameter named "password"; without the argument and with a
    false value (or none) under that key, the name "password" with the
    annotation [str] puts ["Password"] under it. *)
Theorem widget_type_precedence (a : Args) :
  use_app_native E (app a) = true ->
  isinstance_WidgetProtocol E (widget_type a) = None ->
  (truthy (widget_type a) = true ->
   registry_asked_with E a
     (<["widget_type" := widget_type a]> (copy_options a)))
  /\ (truthy (widget_type a) = false ->
      truthy (dict_get (copy_options a) "widget_type") = true ->
      registry_asked_with E a (copy_options a))
  /\ (truthy (widget_type a) = false ->
      truthy (dict_get (copy_options a) "widget_type") = false ->
      lower (name a) = "password" ->
      annotation a = PyType ClsStr ->
      registry_asked_with E a
        (<["widget_type" := PyStr "Password"]> (copy_options a))).
Proof.
  intros Hnative Hconf.
  pose proof (create_widget_registry_trace E a Hnative Hconf) as Hasked.
  fold (registry_asked_with E a (resolve_options a)) in Hasked.
  split; [|split].
  - intros Hwt.
    assert (Hres : resolve_options a =
              <["widget_type" := widget_type a]> (copy_options a)).
    { unfold resolve_options, dict_get. rewrite Hwt, lookup_insert_eq.
      cbn [from_option id]. by rewrite Hwt. }
    by rewrite <- Hres.
  - intros Hwt Hopt.
    assert (Hres : resolve_options a = copy_options a).
    { unfold resolve_options. by rewrite Hwt, Hopt. }
    by rewrite <- Hres.
  - intros Hwt Hopt Hname Hann.
    assert (Hres : resolve_options a =
              <["widget_type" := PyStr "Password"]> (copy_options a)).
    { unfold resolve_options, is_str. rewrite Hwt, Hopt, Hname, Hann.
      by rewrite bool_decide_eq_true_2. }
    by rewrite <- Hres.
Qed.

(** X3: an exception of the registry leaves [create_widget] as it is, after
    the one look-up and before any constructor is called. *)
Theorem registry_error_passes_through (a : Args) (e : Exc) :
  use_app_native E (app a) = true ->
  isinstance_WidgetProtocol E (widget_type a) = None ->
  get_widget_class E (value a) (annotation a) (resolve_options a)
    (is_result a) (raise_on_unknown a) = Raise e ->
  create_widget E a =
  ([EvRegistry (value a) (annotation a) (resolve_options a) (is_result a)
      (raise_on_unknown a)],
   Raise e).
Proof.
  intros Hnative Hconf Hreg. rewrite create_widget_nf. cbv zeta.
  by rewrite Hnative, Hconf, Hreg.
Qed.


(** X5: a call asks the registry at most once and calls at most one
    constructor, in that order, and does nothing else. *)
Theorem one_lookup_then_one_construction (a : Args) :
  exists asked built,
    trace (create_widget E a) = (asked ++ built)%list /\
    (asked = [] \/
     asked = [EvRegistry (value a) (annotation a) (resolve_options a)
                (is_result a) (raise_on_unknown a)]) /\
    (built = [] \/ exists ctor kw, built = [EvConstruct ctor kw]).
Proof.
  assert (Hshape : forall asked built : list Event,
    (asked = [] \/
     asked = [EvRegistry (value a) (annotation a) (resolve_options a)
                (is_result a) (raise_on_unknown a)]) ->
    (built = [] \/ exists ctor kw, built = [EvConstruct ctor kw]) ->
    exists asked' built',
      (asked ++ built)%list = (asked' ++ built')%list /\
      (asked' = [] \/
       asked' = [EvRegistry (value a) (annotation a) (resolve_options a)
                   (is_result a) (raise_on_unknown a)]) /\
      (built' = [] \/ exists ctor kw, built' = [EvConstruct ctor kw])).
  { intros asked built Hasked Hbuilt. by exists asked, built. }
  rewrite create_widget_nf. cbv zeta. unfold trace, outcome.
  destruct (use_app_native E (app a)); cbn [fst snd].
  2: { apply (Hshape [] []); by left. }
  destruct (isinstance_WidgetProtocol E (widget_type a)) as [c|].
  - destruct (first_match E protocol_prefixes c) as [p|]; cbn [fst snd].
    + apply (Hshape [] [_]); [by left | right; by eexists _, _].
    + apply (Hshape [] []); by left.
  - destruct (get_widget_class E (value a) (annotation a) (resolve_options a)
                (is_result a) (raise_on_unknown a)) as [[c opts]|e'].
    + destruct (is_Widget_subclass E c); cbn [fst snd].
      * apply (Hshape [_] [_]); [by right | right; by eexists _, _].
      * destruct (first_match E protocol_prefixes c) as [p|]; cbn [fst snd].
        -- apply (Hshape [_] [_]); [by right | right; by eexists _, _].
        -- apply (Hshape [_] []); [by right | by left].
    + cbn [fst snd]. apply (Hshape [_] []); [by right | by left].
Qed.

(** X6: a widget that is returned is the one the last event of the call
    built, by a constructor that did not raise; its [param_kind] is the
    argument when that is a true value and is left alone otherwise. *)
Theorem returned_widget_was_constructed (a : Args) (w : Widget) :
  outcome (create_widget E a) = Ok w ->
  (exists pre,
     trace (create_widget E a) =
     (pre ++ [EvConstruct (w_ctor w) (w_kwargs w)])%list)
  /\ construct_raises E (w_ctor w) (w_kwargs w) = None
  /\ w_param_kind w =
     if truthy (param_kind a) then Some (param_kind a) else None.
Proof.
  rewrite create_widget_nf. cbv zeta. unfold trace, outcome.
  assert (Hbuilt : forall ctor kw pre,
    match construct_raises E ctor kw with
    | Some e => Raise e
    | None =>
        Ok (set_param_kind (param_kind a)
              {| w_ctor := ctor; w_kwargs := kw; w_param_kind := None |})
    end = Ok w ->
    (exists pre',
       (pre ++ [EvConstruct ctor kw])%list =
       (pre' ++ [EvConstruct (w_ctor w) (w_kwargs w)])%list)
    /\ construct_raises E (w_ctor w) (w_kwargs w) = None
    /\ w_param_kind w =
       if truthy (param_kind a) then Some (param_kind a) else None).
  { intros ctor kw pre. destruct (construct_raises E ctor kw) eqn:Hctor; [done|].
    intros [= <-]. unfold set_param_kind.
    destruct (truthy (param_kind a)); cbn [w_ctor w_kwargs w_param_kind];
      (split; [by exists pre | by split]). }
  destruct (use_app_native E (app a)); cbn [fst snd]; [|done].
  destruct (isinstance_WidgetProtocol E (widget_type a)) as [c|].
  - destruct (first_match E protocol_prefixes c) as [p|]; cbn [fst snd];
      [|done].
    apply (Hbuilt _ _ []).
  - destruct (get_widget_class E (value a) (annotation a) (resolve_options a)
                (is_result a) (raise_on_unknown a)) as [[c opts]|e'];
      [|done].
    destruct (is_Widget_subclass E c); cbn [fst snd].
    + apply (Hbuilt _ _ [_]).
    + destruct (first_match E protocol_prefixes c) as [p|]; cbn [fst snd];
        [|done].
      apply (Hbuilt _ _ [_]).
Qed.

(** X7: a raw class from the registry is wrapped by the wrapper of the
    first protocol, in the order Categorical, Ranged, Button, Value,
    generic, that it implements; the wrapper's constructor is handed the
    five base keyword arguments and the class under ["widget_type"], and no
    other key. *)
Theorem wrapper_of_first_capability_set (a : Args) (c : Class) (opts : Dict)
    (p : string) (before after : list string) :
  use_app_native E (app a) = true ->
  isinstance_WidgetProtocol E (widget_type a) = None ->
  get_widget_class E (value a) (annotation a) (resolve_options a)
    (is_result a) (raise_on_unknown a) = Ok (c, opts) ->
  is_Widget_subclass E c = false ->
  protocol_prefixes = (before ++ p :: after)%list ->
  Forall (fun q => implements E (q ++ "WidgetProtocol") c = false) before ->
  implements E (p ++ "WidgetProtocol") c = true ->
  exists kw,
    trace (create_widget E a) =
      [EvRegistry (value a) (annotation a) (resolve_options a) (is_result a)
         (raise_on_unknown a);
       EvConstruct (CtorBases (p ++ "Widget")) kw]
    /\ dom kw =
       ({["value"; "annotation"; "name"; "label"; "gui_only"; "widget_type"]}
        : gset string)
    /\ kw !! "widget_type" = Some (PyType c)
    /\ kw !! "value" = Some (value a)
    /\ kw !! "annotation" = Some (annotation a)
    /\ kw !! "name" = Some (PyStr (name a))
    /\ kw !! "label" = Some (label a)
    /\ kw !! "gui_only" = Some (PyBool (gui_only a)).
Proof.
  intros Hnative Hconf Hreg Hsub Hps Hbefore Hp.
  assert (Hfm : first_match E protocol_prefixes c = Some p).
  { apply first_match_Some. by exists before, after. }
  exists (<["widget_type" := PyType c]> (base_kwargs a)). split.
  - by apply (raw_class_wrapper_kwargs E a c opts p).
  - unfold base_kwargs. split.
    + rewrite !dom_insert_L, dom_singleton_L. set_solver.
    + by simplify_map_eq.
Qed.

End WithEnv.

(** *** The further properties at sample calls *)

Lemma not_native_raises_first_witness :
  create_widget headless_env default_args = ([], Raise AssertionError).
Proof.
  refine (not_native_raises_first headless_env default_args _).
  reflexivity.
Defined.

Lemma widget_type_precedence_witness :
  registry_asked_with sample_env args_named
    {[ "widget_type" := PyStr "Password" ]}
  /\ registry_asked_with sample_env args_chosen
       {[ "widget_type" := PyType EmptyWidget ]}
  /\ registry_asked_with sample_env args_blank
       {[ "widget_type" := PyStr "Password" ]}.
Proof.
  split; [|split].
  - refine (proj1 (widget_type_precedence sample_env args_named _ _) _);
      reflexivity.
  - refine (proj1 (proj2 (widget_type_precedence sample_env args_chosen _ _))
              _ _); reflexivity.
  - refine (proj2 (proj2 (widget_type_precedence sample_env args_blank _ _))
              _ _ _ _); reflexivity.
Defined.

Lemma registry_error_passes_through_witness :
  create_widget sample_env default_args =
  ([EvRegistry Undefined PyNone ∅ false true],
   Raise (Raised "ValueError: no widget found")).
Proof.
  refine (registry_error_passes_through sample_env default_args _ _ _ _);
    reflexivity.
Defined.


Lemma returned_widget_was_constructed_witness :
  (exists pre,
     trace (create_widget sample_env (args_button PyNone)) =
     (pre ++ [EvConstruct (CtorBases "ButtonWidget")
                (<["widget_type" := PyType PushButton]>
                   (base_kwargs (args_button PyNone)))])%list)
  /\ construct_raises sample_env (CtorBases "ButtonWidget")
       (<["widget_type" := PyType PushButton]>
          (base_kwargs (args_button PyNone))) = None
  /\ None = (if truthy PyNone then Some PyNone else None).
Proof.
  refine (returned_widget_was_constructed sample_env (args_button PyNone)
            {| w_ctor := CtorBases "ButtonWidget";
               w_kwargs := <["widget_type" := PyType PushButton]>
                             (base_kwargs (args_button PyNone));
               w_param_kind := None |} _).
  vm_compute. reflexivity.
Defined.

Lemma wrapper_of_first_capability_set_witness :
  exists kw,
    trace (create_widget sample_env args_tooltip) =
      [EvRegistry Undefined PyNone
         {[ "widget_type" := PyType LineEdit; "tooltip" := PyStr "hi" ]}
         false true;
       EvConstruct (CtorBases "ValueWidget") kw]
    /\ dom kw =
       ({["value"; "annotation"; "name"; "label"; "gui_only"; "widget_type"]}
        : gset string)
    /\ kw !! "widget_type" = Some (PyType LineEdit)
    /\ kw !! "value" = Some Undefined
    /\ kw !! "annotation" = Some PyNone
    /\ kw !! "name" = Some (PyStr "x")
    /\ kw !! "label" = Some PyNone
    /\ kw !! "gui_only" = Some (PyBool false).
Proof.
  refine (wrapper_of_first_capability_set sample_env args_tooltip LineEdit
            {[ "tooltip" := PyStr "hi" ]} "Value"
            ["Categorical"; "Ranged"; "Button"] [""] _ _ _ _ _ _ _).
  - reflexivity.
  - reflexivity.
  - vm_compute. reflexivity.
  - reflexivity.
  - reflexivity.
  - vm_compute. repeat constructor.
  - vm_compute. reflexivity.
Defined.

End CreateWidgetMore.

(** ** Further properties of [ButtonWidget] *)

Module ButtonMore.

Import Button Samples MoreSamples ButtonFacts.

Lemma contains_replace (old new : ascii) (s : string) :
  old <> new -> contains old (replace old new s) = false.
Proof.
  intros Hne. induction s as [|c s IH]; simpl; [done|].
  rewrite IH, orb_false_r.
  destruct (Ascii.eqb c old) eqn:Hc; [|done].
  apply Ascii.eqb_neq. congruence.
Qed.

Section Init.

Variable super_init : PyVal -> PyVal -> bool -> Dict -> Outcome Widget.

(** X8: the constructor warns exactly when [text] and the keyword argument
    ["label"] are both true values, be they different or the same, and
    then once; the warning does not wait for the base constructor to
    succeed, and nothing else is reported. *)
Theorem warning_iff_text_and_label (value txt bind : PyVal) (nullable : bool)
    (kw : Dict) :
  (truthy txt = true /\ truthy (dict_get kw "label") = true ->
   trace (__init__ super_init value txt bind nullable kw) =
   [EvWarn synonym_warning])
  /\ (truthy txt = false \/ truthy (dict_get kw "label") = false ->
      trace (__init__ super_init value txt bind nullable kw) = []).
Proof.
  rewrite init_eq. unfold trace. cbn [fst]. split.
  - by intros [-> ->].
  - intros [-> | ->]; [done|]. by rewrite andb_false_r.
Qed.

(** X9: what the base constructor is called with.  Its keyword arguments
    are those of the call, ["label"] included, except for ["description"],
    which is taken out only when neither [text] nor ["label"] is a true
    value and stays in otherwise; the constructor matters only through its
    answer to that one call, and an exception it raises is the exception of
    [ButtonWidget]. *)
Theorem base_constructor_call (value txt bind : PyVal) (nullable : bool)
    (kw : Dict) :
  exists kw',
    (forall k, k <> "description" -> kw' !! k = kw !! k)
    /\ kw' !! "description" =
       (if truthy (py_or txt (dict_get kw "label"))
        then kw !! "description" else None)
    /\ (forall e,
          super_init value bind nullable kw' = Raise e ->
          outcome (__init__ super_init value txt bind nullable kw) = Raise e)
    /\ (forall other,
          other value bind nullable kw' = super_init value bind nullable kw' ->
          __init__ other value txt bind nullable kw =
          __init__ super_init value txt bind nullable kw).
Proof.
  exists (kwargs_at_super txt kw). split; [|split; [|split]].
  - intros k Hk. unfold kwargs_at_super, dict_pop. cbn [snd].
    destruct (truthy _); [done|]. by rewrite lookup_delete_ne.
  - unfold kwargs_at_super, dict_pop. cbn [snd].
    destruct (truthy _); [done|]. by rewrite lookup_delete_eq.
  - intros e He. rewrite init_eq. unfold outcome. cbn [snd]. by rewrite He.
  - intros other Hother. rewrite !init_eq. by rewrite Hother.
Qed.

(** X10: a widget that the constructor returns shows a text without
    underscores, so that replacing them again changes nothing; the name of
    the widget is the one the base constructor gave it. *)
Theorem constructed_text_has_no_underscore (value txt bind : PyVal)
    (nullable : bool) (kw : Dict) (w : Widget) :
  outcome (__init__ super_init value txt bind nullable kw) = Ok w ->
  contains "_" (text w) = false
  /\ replace "_" " " (text w) = text w
  /\ exists self,
       super_init value bind nullable (kwargs_at_super txt kw) = Ok self /\
       w_name w = w_name self.
Proof.
  rewrite init_eq. unfold outcome. cbn [snd].
  destruct (super_init value bind nullable (kwargs_at_super txt kw))
    as [self|e]; [|done].
  destruct (py_or (text_at_super txt kw) (PyStr (w_name self))); try done.
  intros [= <-]. cbn [text set_text w_backend_text w_name].
  assert (Hno : contains "_" (replace "_" " " s) = false)
    by by apply contains_replace.
  split; [done|]. split; [by apply replace_absent | by exists self].
Qed.

End Init.

(** X11: after the setter of [text] has stored [v], the options read
    ["text"] as [v], whatever the inherited mapping has under that key, and
    every other key as the inherited mapping has it. *)
Theorem options_after_set_text (self : Widget) (h : Heap) (base : Dict)
    (v : string) :
  h !! w_super_options self = Some base ->
  exists d h' m,
    options (set_text self v) h = Some (d, h') /\
    h' !! d = Some m /\
    m !! "text" = Some (PyStr v) /\
    (forall k, k <> "text" -> m !! k = base !! k) /\
    h' !! w_super_options self = Some base.
Proof.
  intros Hbase.
  destruct (options_read (set_text self v) h base Hbase)
    as (h' & Hopt & Hnew & Hd & Hframe).
  exists (fresh (dom h)), h', (<["text" := PyStr v]> base).
  split; [done|]. split; [done|]. split; [by rewrite lookup_insert_eq|].
  split.
  - intros k Hk. by rewrite lookup_insert_ne.
  - rewrite Hframe; [done|]. intros Heq.
    cbn [set_text w_super_options] in Hnew. rewrite Heq in Hbase. congruence.
Qed.

(** *** The further properties at sample widgets *)

Lemma warning_iff_text_and_label_witness :
  trace (__init__ strict_super_init Undefined (PyStr "go") Undefined false
           {[ "label" := PyStr "go"; "description" := PyStr "go" ]})
  = [EvWarn synonym_warning]
  /\ trace (__init__ sample_super_init Undefined (PyStr "") Undefined false
              kwargs_label) = [].
Proof.
  split.
  - refine (proj1 (warning_iff_text_and_label strict_super_init Undefined
                     (PyStr "go") Undefined false _) _).
    split; reflexivity.
  - refine (proj2 (warning_iff_text_and_label sample_super_init Undefined
                     (PyStr "") Undefined false kwargs_label) _).
    left. reflexivity.
Defined.

Lemma base_constructor_call_witness :
  outcome (__init__ strict_super_init Undefined (PyStr "A") Undefined false
             {[ "description" := PyStr "d" ]})
  = Raise (TypeError "got an unexpected keyword argument 'description'").
Proof.
  destruct (base_constructor_call strict_super_init Undefined (PyStr "A")
              Undefined false {[ "description" := PyStr "d" ]})
    as (kw' & _ & Hdesc & Herr & _).
  apply Herr. unfold strict_super_init. rewrite Hdesc. reflexivity.
Defined.

Lemma constructed_text_has_no_underscore_witness :
  contains "_" "go on" = false
  /\ replace "_" " " "go on" = "go on"
  /\ exists self,
       sample_super_init Undefined Undefined false
         (kwargs_at_super PyNone kwargs_description) = Ok self /\
       "run_me" = w_name self.
Proof.
  refine (constructed_text_has_no_underscore sample_super_init Undefined PyNone
            Undefined false kwargs_description
            {| w_name := "run_me"; w_backend_text := "go on";
               w_super_options := 0; w_changed := 0 |} _).
  vm_compute. reflexivity.
Defined.

Lemma options_after_set_text_witness :
  exists d h' m,
    options (set_text sample_button "stop") heap_with_text = Some (d, h') /\
    h' !! d = Some m /\
    m !! "text" = Some (PyStr "stop") /\
    (forall k, k <> "text" ->
       m !! k = ({[ "enabled" := PyBool true; "text" := PyStr "old" ]} : Dict) !! k) /\
    h' !! 0%nat = Some {[ "enabled" := PyBool true; "text" := PyStr "old" ]}.
Proof.
  refine (options_after_set_text sample_button heap_with_text
            {[ "enabled" := PyBool true; "text" := PyStr "old" ]} "stop" _).
  reflexivity.
Defined.

End ButtonMore.

(** ** [create_widget] followed by [ButtonWidget] *)

Module BasesFacts.

Import CreateWidget Samples MoreSamples CreateWidgetFacts CreateWidgetMore.

(** A constructor from [magicgui.widgets.bases] is only ever called with
    the base keyword arguments and the class. *)
Lemma bases_constructor_kwargs (E : Env) (a : Args) (attr : string)
    (kw : Dict) :
  last (trace (create_widget E a)) = Some (EvConstruct (CtorBases attr) kw) ->
  exists c, kw = <["widget_type" := PyType c]> (base_kwargs a).
Proof.
  rewrite create_widget_nf. cbv zeta. unfold trace, outcome.
  destruct (use_app_native E (app a)); cbn [fst snd]; [|done].
  destruct (isinstance_WidgetProtocol E (widget_type a)) as [c|].
  - destruct (first_match E protocol_prefixes c) as [p|]; cbn [fst snd];
      [|done].
    intros [= _ <-]. by exists c.
  - destruct (get_widget_class E (value a) (annotation a) (resolve_options a)
                (is_result a) (raise_on_unknown a)) as [[c opts]|e'];
      [|done].
    destruct (is_Widget_subclass E c); cbn [fst snd]; [done|].
    destruct (first_match E protocol_prefixes c) as [p|]; cbn [fst snd];
      [|done].
    intros [= _ <-]. by exists c.
Qed.

(** X12: whenever [create_widget] calls [bases.ButtonWidget], with a
    [label] that is [None] or a string, the button is built without a
    warning, its base constructor receives [annotation], [name], [label],
    [gui_only] and [widget_type], and it shows the label, or for an empty or
    missing label the widget's name, with underscores replaced by spaces:
    the caller's options cannot give it a [text]. *)
Theorem button_built_by_create_widget (E : Env)
    (super_init : PyVal -> PyVal -> bool -> Dict -> Outcome Button.Widget)
    (a : Args) (kw : Dict) (self : Button.Widget) :
  last (trace (create_widget E a)) =
    Some (EvConstruct (CtorBases "ButtonWidget") kw) ->
  (label a = PyNone \/ exists l, label a = PyStr l) ->
  super_init (value a) Undefined false (delete "value" kw) = Ok self ->
  dom (delete "value" kw) =
    ({["annotation"; "name"; "label"; "gui_only"; "widget_type"]}
     : gset string)
  /\ Bases.ButtonWidget super_init kw =
     ([], Ok (Button.set_text self
                (replace "_" " "
                   (match label a with
                    | PyStr l => if (l =? "")%string then Button.w_name self
                                 else l
                    | _ => Button.w_name self
                    end)))).
Proof.
  intros Hlast Hlabel Hsuper.
  destruct (bases_constructor_kwargs E a _ kw Hlast) as [c ->].
  set (kw := <["widget_type" := PyType c]> (base_kwargs a)) in *.
  assert (Hvalue : kw !! "value" = Some (value a))
    by (unfold kw, base_kwargs; by simplify_map_eq).
  assert (Htext : kw !! "text" = None)
    by (unfold kw, base_kwargs; by simplify_map_eq).
  assert (Hbind : kw !! "bind" = None)
    by (unfold kw, base_kwargs; by simplify_map_eq).
  assert (Hnull : kw !! "nullable" = None)
    by (unfold kw, base_kwargs; by simplify_map_eq).
  assert (Hlab : delete "value" kw !! "label" = Some (label a))
    by (unfold kw, base_kwargs; by simplify_map_eq).
  assert (Hdesc : delete "value" kw !! "description" = None)
    by (unfold kw, base_kwargs; by simplify_map_eq).
  split.
  - unfold kw, base_kwargs.
    rewrite dom_delete_L, !dom_insert_L, dom_singleton_L.
    apply set_eq. intros k. rewrite elem_of_difference, !elem_of_union,
      !elem_of_singleton. split.
    + intros [Hk Hne]. tauto.
    + intros Hk. split; [tauto|]. intros ->. intuition discriminate.
  - unfold Bases.ButtonWidget, Bases.nullable_of.
    rewrite Hvalue, Htext, Hbind, Hnull. cbn [from_option id].
    rewrite (delete_id (delete "value" kw) "text")
      by by rewrite lookup_delete_ne.
    rewrite (delete_id (delete "value" kw) "bind")
      by by rewrite lookup_delete_ne.
    rewrite (delete_id (delete "value" kw) "nullable")
      by by rewrite lookup_delete_ne.
    rewrite ButtonFacts.init_eq.
    unfold Button.kwargs_at_super, Button.text_at_super, dict_pop, dict_get.
    cbn [fst snd]. rewrite Hlab, Hdesc. cbn [from_option id].
    rewrite (delete_id (delete "value" kw) "description") by done.
    unfold py_or.
    destruct Hlabel as [Hl | [l Hl]]; rewrite Hl; cbn [truthy andb].
    + by rewrite Hsuper.
    + destruct (l =? "")%string eqn:Hempty; cbn [negb]; rewrite Hsuper;
        cbn [truthy]; by rewrite ?Hempty.
Qed.

Lemma button_built_by_create_widget_witness :
  Bases.ButtonWidget sample_super_init
    (<["widget_type" := PyType PushButton]>
       (base_kwargs (args_button (PyStr "Run_it"))))
  = ([], Ok {| Button.w_name := "run_me"; Button.w_backend_text := "Run it";
               Button.w_super_options := 0; Button.w_changed := 0 |})
  /\ Bases.ButtonWidget sample_super_init
       (<["widget_type" := PyType PushButton]>
          (base_kwargs (args_button PyNone)))
     = ([], Ok {| Button.w_name := "run_me"; Button.w_backend_text := "run me";
                  Button.w_super_options := 0; Button.w_changed := 0 |}).
Proof.
  split.
  - refine (proj2 (button_built_by_create_widget sample_env sample_super_init
                     (args_button (PyStr "Run_it")) _ sample_self _ _ _)).
    + vm_compute. reflexivity.
    + right. by exists "Run_it".
    + reflexivity.
  - refine (proj2 (button_built_by_create_widget sample_env sample_super_init
                     (args_button PyNone) _ sample_self _ _ _)).
    + vm_compute. reflexivity.
    + by left.
    + reflexivity.
Defined.

End BasesFacts.
